(** * Z-score threshold sweep (Z-score.py): a shallow embedding

    The script builds a two-group data frame, standardises the CPU column
    against the statistics of set A, and for a range of thresholds counts
    which rows of set B are flagged.  This file embeds that computation and
    proves properties of it.

    Numbers.  Python floats are embedded as exact rationals ([Q]); rounding
    is not modelled.  The Z-Score column can hold the IEEE special values
    that a division by zero produces, so it has type [pyfloat]: a rational,
    an infinity, or NaN.  Comparisons against NaN are false, as in IEEE 754.
    Rounding does change one thing the properties speak of, the number of
    thresholds [np.arange] generates; module [binary64] computes that
    number in IEEE double arithmetic, next to the exact one.

    Libraries.  [np.arange], [np.abs], [Series.mean] and [Series.std] are
    NumPy and pandas functions; they are embedded from their documented
    behaviour.  The square root inside [Series.std] is a parameter [sqrt]
    of the scoring functions; [Qsqrt] is the instance used to run the
    script's own data set. *)

From Stdlib Require Import ZArith QArith Qround Qabs SpecFloat.
From Stdlib Require Import String DecimalString Bool List Sorted Lia Lqa.
Import ListNotations.
Local Open Scope Q_scope.

(** ** Floating-point values with the IEEE special cases *)

Inductive pyfloat : Type :=
| NaN
| Inf (negative : bool)
| Fin (q : Q).

Definition Qlt_bool (x y : Q) : bool := negb (Qle_bool y x).

(** [x < y] on floats. *)
Definition fltb (x y : pyfloat) : bool :=
  match x, y with
  | NaN, _ | _, NaN => false
  | Inf a, Inf b => a && negb b
  | Inf a, Fin _ => a
  | Fin _, Inf b => negb b
  | Fin p, Fin q => Qlt_bool p q
  end.

(** [x <= y] on floats. *)
Definition fleb (x y : pyfloat) : bool :=
  match x, y with
  | NaN, _ | _, NaN => false
  | Inf a, Inf b => a || negb b
  | Inf a, Fin _ => a
  | Fin _, Inf b => negb b
  | Fin p, Fin q => Qle_bool p q
  end.

(** [x > y] is [y < x]. *)
Definition fgtb (x y : pyfloat) : bool := fltb y x.

Definition fsub (x y : pyfloat) : pyfloat :=
  match x, y with
  | NaN, _ | _, NaN => NaN
  | Inf a, Inf b => if Bool.eqb a b then NaN else Inf a
  | Inf a, Fin _ => Inf a
  | Fin _, Inf b => Inf (negb b)
  | Fin p, Fin q => Fin (p - q)
  end.

Definition fdiv (x y : pyfloat) : pyfloat :=
  match x, y with
  | NaN, _ | _, NaN => NaN
  | Inf _, Inf _ => NaN
  | Inf a, Fin q => Inf (xorb a (Qlt_bool q 0))
  | Fin _, Inf _ => Fin 0
  | Fin p, Fin q =>
      if Qeq_bool q 0
      then (if Qeq_bool p 0 then NaN else Inf (Qlt_bool p 0))
      else Fin (p / q)
  end.

Definition is_nan (x : pyfloat) : bool :=
  match x with NaN => true | _ => false end.

(** ** NumPy *)

Module np.

(** [np.abs] on one float. *)
Definition abs (x : pyfloat) : pyfloat :=
  match x with
  | NaN => NaN
  | Inf _ => Inf false
  | Fin q => Fin (Qabs q)
  end.

(** [np.arange(start, stop, step)] for a non-zero [step]: the length is
    [ceil((stop - start) / step)] (none when that is not positive) and
    the element at index [i] is [start + i * step]. *)
Definition arange (start stop step : Q) : list Q :=
  map (fun i : nat => start + inject_Z (Z.of_nat i) * step)
      (seq 0 (Z.to_nat (Qceiling ((stop - start) / step)))).

End np.

(** ** pandas *)

(** A rational square root, rounded down to a multiple of [2^-52]. *)
Definition Qsqrt (q : Q) : Q :=
  Z.sqrt (Qfloor (q * inject_Z (2 ^ 104))) # (2 ^ 52).

Definition Qsum (l : list Q) : Q := fold_right Qplus 0 l.

Definition Qlen (l : list Q) : Q := inject_Z (Z.of_nat (length l)).

Module Series.

(** [Series.mean()]: NaN on an empty series. *)
Definition mean (s : list Q) : pyfloat :=
  match s with
  | [] => NaN
  | _ => Fin (Qsum s / Qlen s)
  end.

(** [Series.std()] with its default [ddof=1]: the square root of the sum
    of squared deviations over [n - 1]; NaN when [n <= 1]. *)
Definition std (sqrt : Q -> Q) (s : list Q) : pyfloat :=
  match s with
  | [] | [_] => NaN
  | _ =>
      let m := Qsum s / Qlen s in
      Fin (sqrt (Qsum (map (fun x => (x - m) * (x - m)) s) / (Qlen s - 1)))
  end.

End Series.

(** ** The data frame *)

(** One row of [df] before the Z-Score column is added.  The column [Set]
    is spelt [Set_]. *)
Record observation : Type := mk_observation {
  CPU : Q;
  Set_ : string;
  IsTrueOutlier : bool;
  Label : string
}.

(** One row of [df] once [df['Z-Score']] is assigned. *)
Record row : Type := mk_row {
  obs :> observation;
  ZScore : pyfloat
}.

(** The dict of columns handed to [pd.DataFrame]. *)
Record columns : Type := mk_columns {
  col_CPU : list Q;
  col_Set : list string;
  col_IsTrueOutlier : list bool;
  col_Label : list string
}.

(** [pd.DataFrame(data)] for columns of one length: the rows, in index
    order. *)
Definition DataFrame (d : columns) : list observation :=
  map (fun x : Q * string * bool * string =>
         let '(c, s, o, l) := x in mk_observation c s o l)
      (combine (combine (combine (col_CPU d) (col_Set d))
                        (col_IsTrueOutlier d))
               (col_Label d)).

(** [df[df['Set'] == name]['CPU']]. *)
Definition CPU_of_set (name : string) (df : list observation) : list Q :=
  map CPU (filter (fun o => String.eqb (Set_ o) name) df).

Section Scoring.

Variable sqrt : Q -> Q.

(** Lines 25-26: the statistics of set A. *)
Definition mean (df : list observation) : pyfloat :=
  Series.mean (CPU_of_set "A" df).

Definition std (df : list observation) : pyfloat :=
  Series.std sqrt (CPU_of_set "A" df).

(** Line 27: [df['Z-Score'] = (df['CPU'] - mean) / std]. *)
Definition add_zscore (df : list observation) : list row :=
  map (fun o => mk_row o (fdiv (fsub (Fin (CPU o)) (mean df)) (std df)))
      df.

End Scoring.

(** ** The script's data set (lines 11-22) *)

Definition set_a_values : list Q := [23.5; 25.1; 22.8; 24.3; 23.9; 24.7].
Definition set_b_normal : list Q := [24.1; 23.8; 25.0; 24.4].
Definition set_b_outliers : list Q := [26.2; 27.1; 25.9; 22.3; 26.8; 21.5].
Definition set_b_values : list Q := set_b_normal ++ set_b_outliers.

Definition str_of_nat (n : nat) : string :=
  NilEmpty.string_of_uint (Nat.to_uint n).

Definition labels (prefix : string) (n : nat) : list string :=
  map (fun i => (prefix ++ str_of_nat (i + 1))%string) (seq 0 n).

Definition data : columns :=
  {| col_CPU := set_a_values ++ set_b_values;
     col_Set := repeat "A"%string (length set_a_values)
                ++ repeat "B"%string (length set_b_values);
     col_IsTrueOutlier := repeat false (length set_a_values)
                          ++ repeat false (length set_b_normal)
                          ++ repeat true (length set_b_outliers);
     col_Label := labels "A" (length set_a_values)
                  ++ labels "B" (length set_b_values) |}.

Definition df : list row := add_zscore Qsqrt (DataFrame data).

(** ** Python containers *)

(** A dict keyed by floats, in insertion order.  Assigning to a key that is
    already present (keys compare by value) replaces the value and keeps
    the key's place; a new key goes to the end. *)
Definition dict (V : Type) : Type := list (Q * V).

Fixpoint dict_set {V : Type} (k : Q) (v : V) (d : dict V) : dict V :=
  match d with
  | [] => [(k, v)]
  | (k', v') :: d' =>
      if Qeq_bool k' k then (k', v) :: d' else (k', v') :: dict_set k v d'
  end.

(** [min(iterable, key=...)]: the first item whose key is smallest; [None]
    stands for the [ValueError] on an empty iterable. *)
Definition py_min {A : Type} (key : A -> Z) (l : list A) : option A :=
  match l with
  | [] => None
  | x :: xs =>
      Some (fold_left (fun best y => if (key y <? key best)%Z then y else best)
                      xs x)
  end.

(** ** The sweep (lines 41-65) *)

(** The value stored under [results[threshold]]. *)
Record counts : Type := mk_counts {
  total : nat;
  true_positives : nat;
  false_positives : nat;
  missed : nat
}.

(** One element of [export_results]. *)
Record export_row : Type := mk_export_row {
  Threshold : Q;
  Detected : nat;
  TruePositives : nat;
  FalsePositives : nat;
  MissedOutliers : nat
}.

(** Line 41. *)
Definition thresholds (threshold_min threshold_max : Q) : list Q :=
  np.arange threshold_min (threshold_max + 0.1) 0.1.

(** Line 46. *)
Definition detected (df : list row) (threshold : Q) : list row :=
  filter (fun r : row => String.eqb (Set_ r) "B"
                   && fgtb (np.abs (ZScore r)) (Fin threshold)) df.

(** Lines 47-48. *)
Definition true_positives_of (detected : list row) : list row :=
  filter (fun r : row => Bool.eqb (IsTrueOutlier r) true) detected.

Definition false_positives_of (detected : list row) : list row :=
  filter (fun r : row => Bool.eqb (IsTrueOutlier r) false) detected.

(** Line 49. *)
Definition missed_outliers (df : list row) (threshold : Q) : list row :=
  filter (fun r : row => String.eqb (Set_ r) "B" && IsTrueOutlier r
                   && fleb (np.abs (ZScore r)) (Fin threshold)) df.

(** Lines 50-55: the entry computed for one threshold. *)
Definition evaluate (df : list row) (threshold : Q) : counts :=
  let d := detected df threshold in
  {| total := length d;
     true_positives := length (true_positives_of d);
     false_positives := length (false_positives_of d);
     missed := length (missed_outliers df threshold) |}.

(** Lines 56-62. *)
Definition export_entry (threshold : Q) (c : counts) : export_row :=
  {| Threshold := threshold;
     Detected := total c;
     TruePositives := true_positives c;
     FalsePositives := false_positives c;
     MissedOutliers := missed c |}.

(** One iteration of the loop at line 45, on [(results, export_results)]. *)
Definition sweep_step (df : list row)
    (acc : dict counts * list export_row) (threshold : Q)
    : dict counts * list export_row :=
  let c := evaluate df threshold in
  (dict_set threshold c (fst acc), snd acc ++ [export_entry threshold c]).

(** Lines 42-62, the loop over a threshold sequence: both accumulators
    start empty. *)
Definition sweep_over (df : list row) (ts : list Q)
    : dict counts * list export_row :=
  fold_left (sweep_step df) ts ([], []).

(** Lines 41-62. *)
Definition sweep (df : list row) (threshold_min threshold_max : Q)
    : dict counts * list export_row :=
  sweep_over df (thresholds threshold_min threshold_max).

(** The key of line 65. *)
Definition distance (target_anomalies : Z) (c : counts) : Z :=
  Z.abs (Z.of_nat (total c) - target_anomalies).

(** Line 65. *)
Definition closest_threshold (results : dict counts) (target_anomalies : Z)
    : option Q :=
  option_map fst (py_min (fun x => distance target_anomalies (snd x)) results).

(** ** Effects *)

(** What the two functions do to the outside: HTML shown with [display],
    the figure shown with [plt.show], a browser download.  The summary table
    and the figure are kept as data, not as markup. *)
Inductive effect : Type :=
| display_HTML (html : string)
| display_summary (closest : Q) (results : dict counts)
| plt_show (detected_anomalies missed_points : list row)
| files_download (filename : string).

Inductive completion : Type :=
| Returned
| Raised (exception : string).

Definition invalid_range_html : string :=
  "<b style='color:red;'>⚠️ Min threshold must be ≤ max threshold.</b>".

Definition no_results_html : string :=
  "<b style='color:red;'>⚠️ No results to export. Run the analysis first.</b>".

(** Lines 78-81: the points marked in the figure, taken at [threshold_min]. *)
Definition figure (df : list row) (threshold_min : Q) : effect :=
  let df_b := filter (fun r : row => String.eqb (Set_ r) "B") df in
  plt_show
    (filter (fun r : row => fgtb (np.abs (ZScore r)) (Fin threshold_min)) df_b)
    (filter (fun r : row => IsTrueOutlier r
                      && fleb (np.abs (ZScore r)) (Fin threshold_min)) df_b).

(** [analyze_thresholds], lines 35-107.  The global [export_results] is
    passed in and returned. *)
Definition analyze_thresholds (df : list row) (export_results : list export_row)
    (threshold_min threshold_max : Q) (target_anomalies : Z)
    : list export_row * list effect * completion :=
  if Qlt_bool threshold_max threshold_min then
    (export_results, [display_HTML invalid_range_html], Returned)
  else
    let '(results, export_results') := sweep df threshold_min threshold_max in
    match closest_threshold results target_anomalies with
    | None => (export_results', [], Raised "ValueError")
    | Some closest =>
        (export_results',
         [display_summary closest results; figure df threshold_min],
         Returned)
    end.

(** [export_csv_callback], lines 112-121. *)
Definition export_csv_callback (export_results : list export_row)
    : list effect :=
  match export_results with
  | [] => [display_HTML no_results_html]
  | _ :: _ => [files_download "anomaly_thresholds.csv"]
  end.

(** Line 29. *)
Definition initial_export_results : list export_row := [].

(** A session: calls of the two functions, in order, on the shared global. *)
Inductive call : Type :=
| call_analyze (threshold_min threshold_max : Q) (target_anomalies : Z)
| call_export.

Definition run_call (df : list row) (st : list export_row * list effect)
    (c : call) : list export_row * list effect :=
  match c with
  | call_analyze lo hi target =>
      let '(st', out, _) := analyze_thresholds df (fst st) lo hi target in
      (st', snd st ++ out)
  | call_export => (fst st, snd st ++ export_csv_callback (fst st))
  end.

Definition run_session (df : list row) (calls : list call)
    : list export_row * list effect :=
  fold_left (run_call df) calls (initial_export_results, []).

(** ** The summary table and the figure's lines *)

(** Lines 68-69: the style of the table row of threshold [t]. *)
Definition color (t : Q) : string :=
  if Qle_bool t 1 then "green"
  else if Qle_bool t 2 then "orange"
  else "red".

Definition highlight (t closest_threshold : Q) : string :=
  if Qeq_bool t closest_threshold then "font-weight:bold;" else "".

(** Lines 67-70: the colour and the highlight of every row of the table,
    one per item of [results], in order. *)
Definition summary_styles (closest_threshold : Q) (results : dict counts)
    : list (string * string) :=
  map (fun x => (color (fst x), highlight (fst x) closest_threshold)) results.




(** ** Line 41 in double precision *)

Module binary64.

Definition prec : Z := 53.
Definition emax : Z := 1024.

Definition of_Z (z : Z) : spec_float := binary_normalize prec emax z 0 false.

(** The double a decimal literal [n / d] denotes, for integers [n] and
    [d] below [2^53]: the quotient, rounded to nearest. *)
Definition literal (n d : Z) : spec_float :=
  SFdiv prec emax (of_Z n) (of_Z d).

Definition to_Q (x : spec_float) : option Q :=
  match x with
  | S754_zero _ => Some 0
  | S754_finite s m e =>
      let z := if s then Z.neg m else Z.pos m in
      Some (if (0 <=? e)%Z then inject_Z (z * 2 ^ e)
            else z # Z.to_pos (2 ^ (- e)))
  | S754_infinity _ | S754_nan => None
  end.

(** [len(np.arange(lo, hi + 0.1, 0.1))], every operation rounded:
    [ceil (((hi + 0.1) - lo) / 0.1)]. *)
Definition thresholds_length (lo hi : spec_float) : option Z :=
  let tenth := literal 1 10 in
  option_map Qceiling
    (to_Q (SFdiv prec emax
             (SFsub prec emax (SFadd prec emax hi tenth) lo) tenth)).

End binary64.

(** ** Notions used to state the properties *)

(** [|z| > t], as a proposition. *)
Definition exceeds (z : pyfloat) (t : Q) : Prop :=
  match z with
  | NaN => False
  | Inf _ => True
  | Fin q => t < Qabs q
  end.

(** [|z| <= t], as a proposition. *)
Definition within (z : pyfloat) (t : Q) : Prop :=
  match z with
  | NaN => False
  | Inf _ => False
  | Fin q => Qabs q <= t
  end.

(** [|z|] is exactly [t]. *)
Definition at_threshold (z : pyfloat) (t : Q) : Prop :=
  match z with
  | Fin q => Qabs q == t
  | _ => False
  end.

(** The rows of set B. *)
Definition candidates (df : list row) : list row :=
  filter (fun r : row => String.eqb (Set_ r) "B") df.

(** The rows of set B labelled as true outliers. *)
Definition true_outliers (df : list row) : list row :=
  filter (fun r : row => String.eqb (Set_ r) "B" && IsTrueOutlier r) df.

(** Every z-score of the frame is a number (finite or infinite). *)
Definition scored (df : list row) : Prop :=
  Forall (fun r : row => ZScore r <> NaN) df.



(** No call of the session ran a sweep: every call of [analyze_thresholds]
    had [threshold_min > threshold_max]. *)
Definition no_sweep_ran (calls : list call) : Prop :=
  Forall (fun c => match c with
                   | call_analyze lo hi _ => hi < lo
                   | call_export => True
                   end) calls.

(** The reference statistics, in the words of the specification: the
    arithmetic mean and the sample standard deviation (divisor [n - 1]) of
    the values of the reference group, set A. *)
Definition reference_values (data : list observation) : list Q :=
  map CPU (filter (fun o => String.eqb (Set_ o) "A") data).

Definition referenceMean (data : list observation) : Q :=
  Qsum (reference_values data) / Qlen (reference_values data).

Definition referenceStdDev (sqrt : Q -> Q) (data : list observation) : Q :=
  sqrt (Qsum (map (fun x => (x - referenceMean data) * (x - referenceMean data))
                  (reference_values data))
        / (Qlen (reference_values data) - 1)).

(** The true outliers of set B whose z-score is NaN. *)
Definition nan_true_outliers (df : list row) : list row :=
  filter (fun r : row => String.eqb (Set_ r) "B" && IsTrueOutlier r
                         && is_nan (ZScore r)) df.

(** The keys a dict ends with when the thresholds [ts] are assigned in
    order: each value once, at its first occurrence. *)
Definition add_key (keys : list Q) (t : Q) : list Q :=
  if existsb (fun k => Qeq_bool k t) keys then keys else keys ++ [t].

Definition distinct_keys (ts : list Q) : list Q := fold_left add_key ts [].

(** The rank of a row colour: green, then orange, then red. *)
Definition severity (c : string) : nat :=
  if String.eqb c "green" then 0
  else if String.eqb c "orange" then 1
  else 2.




(** ** Data sets used in examples *)

(** A frame of one candidate, a true outlier whose z-score is exactly 2. *)
Definition boundary_row : row :=
  mk_row (mk_observation 25.7 "B" true "B1") (Fin 2).


(** A single reference row, with two candidates. *)
Definition single_reference_data : list observation :=
  [ mk_observation 24 "A" false "A1";
    mk_observation 40 "B" true "B1"; mk_observation 24 "B" false "B2" ].

(** A threshold sequence that is neither ascending nor free of repeats. *)
Definition repeating_thresholds : list Q := [1.0; 0.5; 1.0; 2.5].

(** * Properties *)

(** ** Comparisons *)

Lemma Qlt_bool_iff (x y : Q) : Qlt_bool x y = true <-> x < y.
Proof.
  unfold Qlt_bool. rewrite negb_true_iff.
  split; intro H.
  - apply Qnot_le_lt. intro Hle. apply Qle_bool_iff in Hle. congruence.
  - destruct (Qle_bool y x) eqn:E; [|reflexivity].
    apply Qle_bool_iff in E. exfalso. exact (Qlt_not_le _ _ H E).
Qed.


Lemma fgtb_abs_spec (z : pyfloat) (t : Q) :
  fgtb (np.abs z) (Fin t) = true <-> exceeds z t.
Proof.
  destruct z as [|s|q]; simpl.
  - split; [discriminate | contradiction].
  - split; [constructor | reflexivity].
  - apply Qlt_bool_iff.
Qed.

Lemma fleb_abs_spec (z : pyfloat) (t : Q) :
  fleb (np.abs z) (Fin t) = true <-> within z t.
Proof.
  destruct z as [|s|q]; simpl.
  - split; [discriminate | contradiction].
  - split; [discriminate | contradiction].
  - apply Qle_bool_iff.
Qed.

(** On a number the two tests of the loop are complementary. *)
Lemma fleb_abs_negb_fgtb (z : pyfloat) (t : Q) :
  z <> NaN ->
  fleb (np.abs z) (Fin t) = negb (fgtb (np.abs z) (Fin t)).
Proof.
  intro Hz. destruct z as [|s|q]; simpl.
  - congruence.
  - reflexivity.
  - unfold Qlt_bool. now rewrite negb_involutive.
Qed.

Lemma exceeds_antitone (z : pyfloat) (t1 t2 : Q) :
  t1 < t2 -> exceeds z t2 -> exceeds z t1.
Proof.
  destruct z as [|s|q]; simpl; auto.
  intros H12 H2. eapply Qlt_trans; eassumption.
Qed.

(** ** Counting with [filter] *)

Lemma filter_length_split {A : Type} (p : A -> bool) (l : list A) :
  (length (filter p l) + length (filter (fun x => negb (p x)) l)
   = length l)%nat.
Proof.
  induction l as [|a l IH]; simpl; [reflexivity|].
  destruct (p a); simpl; lia.
Qed.

Lemma filter_length_mono {A : Type} (p q : A -> bool) (l : list A) :
  (forall x, In x l -> p x = true -> q x = true) ->
  (length (filter p l) <= length (filter q l))%nat.
Proof.
  induction l as [|a l IH]; intro H; simpl; [lia|].
  assert (IH' : (length (filter p l) <= length (filter q l))%nat).
  { apply IH. intros x Hx. apply H. now right. }
  destruct (p a) eqn:Ep.
  - rewrite (H a (or_introl eq_refl) Ep). simpl. lia.
  - destruct (q a); simpl; lia.
Qed.

Lemma true_false_positives_split (d : list row) :
  (length (true_positives_of d) + length (false_positives_of d)
   = length d)%nat.
Proof.
  unfold true_positives_of, false_positives_of.
  induction d as [|r d IH]; simpl; [reflexivity|].
  destruct (IsTrueOutlier r); simpl; lia.
Qed.

Lemma true_positives_missed_split (df : list row) (t : Q) :
  scored df ->
  (length (true_positives_of (detected df t))
   + length (missed_outliers df t)
   = length (true_outliers df))%nat.
Proof.
  unfold scored, true_positives_of, detected, missed_outliers, true_outliers.
  induction 1 as [|r df Hr Hdf IH]; [reflexivity|].
  cbn [filter]. rewrite (fleb_abs_negb_fgtb _ t Hr).
  destruct (String.eqb (Set_ r) "B"), (IsTrueOutlier r) eqn:Eo,
    (fgtb (np.abs (ZScore r)) (Fin t));
    cbn [andb negb filter length]; rewrite ?Eo; cbn [Bool.eqb length]; lia.
Qed.

(** ** The counts of one threshold *)

(** C3: a row of set B is among the detected rows exactly when
    [|Z-Score| > threshold], strictly; a row whose [|Z-Score|] equals the
    threshold is not detected, and it is among the missed outliers when it
    is labelled a true outlier.  The detected count is the number of
    detected rows. *)
Theorem detected_iff_strictly_above
    (df : list row) (threshold : Q) (r : row) :
  In r df ->
  Set_ r = "B"%string ->
  total (evaluate df threshold) = length (detected df threshold) /\
  (In r (detected df threshold) <-> exceeds (ZScore r) threshold) /\
  (at_threshold (ZScore r) threshold ->
   ~ In r (detected df threshold) /\
   (IsTrueOutlier r = true -> In r (missed_outliers df threshold))).
Proof.
  intros Hin HB.
  assert (Hdet : In r (detected df threshold) <-> exceeds (ZScore r) threshold).
  { unfold detected. rewrite filter_In, HB, String.eqb_refl. cbn [andb].
    rewrite fgtb_abs_spec. tauto. }
  split; [reflexivity|]. split; [exact Hdet|].
  intro Hat. destruct (ZScore r) as [|s|q] eqn:Ez; simpl in Hat; try contradiction.
  split.
  - rewrite Hdet. simpl. rewrite Hat. apply Qlt_irrefl.
  - intro Ho. unfold missed_outliers.
    rewrite filter_In, HB, Ho, Ez, String.eqb_refl. cbn [andb].
    split; [exact Hin|]. apply fleb_abs_spec. simpl. rewrite Hat. apply Qle_refl.
Qed.

(** C5: raising the threshold never raises the detected count. *)
Theorem total_detected_antitone (df : list row) (t1 t2 : Q) :
  t1 < t2 ->
  (total (evaluate df t2) <= total (evaluate df t1))%nat.
Proof.
  intro H12. cbn [evaluate total]. unfold detected.
  apply filter_length_mono. intros r _ Hr.
  apply andb_true_iff in Hr. destruct Hr as [HB Hgt].
  rewrite HB. cbn [andb].
  apply fgtb_abs_spec. apply fgtb_abs_spec in Hgt.
  eapply exceeds_antitone; eassumption.
Qed.

(** ** The threshold sequence *)

Lemma inject_nat_lt (i j : nat) :
  (i < j)%nat -> inject_Z (Z.of_nat i) < inject_Z (Z.of_nat j).
Proof. intro H. rewrite <- Zlt_Qlt. lia. Qed.





Lemma thresholds_sorted (lo hi : Q) : StronglySorted Qlt (thresholds lo hi).
Proof.
  unfold thresholds, np.arange.
  generalize (Z.to_nat (Qceiling ((hi + 0.1 - lo) / 0.1))) as n.
  generalize 0%nat as k.
  intros k n. revert k.
  induction n as [|n IH]; intro k; cbn [seq map]; constructor.
  - apply IH.
  - apply Forall_forall. intros t Ht.
    apply in_map_iff in Ht. destruct Ht as [j [<- Hj]].
    apply in_seq in Hj.
    assert (Hlt : inject_Z (Z.of_nat k) < inject_Z (Z.of_nat j))
      by (apply inject_nat_lt; lia).
    lra.
Qed.



(** ** The dict and the loop *)

Lemma dict_set_fresh {V : Type} (k : Q) (v : V) (d : dict V) :
  Forall (fun kv => fst kv < k) d -> dict_set k v d = d ++ [(k, v)].
Proof.
  induction 1 as [|[k' v'] d Hk Hd IH]; cbn [dict_set app]; [reflexivity|].
  cbn [fst] in Hk.
  destruct (Qeq_bool k' k) eqn:E.
  - apply Qeq_bool_iff in E. rewrite E in Hk. now apply Qlt_irrefl in Hk.
  - now rewrite IH.
Qed.


Lemma sweep_fold_sorted (df : list row) (ts : list Q) :
  StronglySorted Qlt ts ->
  forall (d : dict counts) (e : list export_row),
    Forall (fun kv => Forall (Qlt (fst kv)) ts) d ->
    fold_left (sweep_step df) ts (d, e)
    = (d ++ map (fun t => (t, evaluate df t)) ts,
       e ++ map (fun t => export_entry t (evaluate df t)) ts).
Proof.
  induction 1 as [|t ts Hs IH Ht]; intros d e Hd; cbn [fold_left map].
  - now rewrite !app_nil_r.
  - unfold sweep_step at 2. cbn [fst snd].
    rewrite dict_set_fresh.
    + rewrite IH.
      * now rewrite <- !app_assoc.
      * apply Forall_app. split.
        -- eapply Forall_impl; [|exact Hd].
           intros kv Hkv. now inversion Hkv.
        -- constructor; [exact Ht | constructor].
    + eapply Forall_impl; [|exact Hd].
      intros kv Hkv. now inversion Hkv.
Qed.

(** On an ascending sequence no key repeats: the dict and the export list
    hold one entry per threshold, in order. *)
Lemma sweep_over_sorted (df : list row) (ts : list Q) :
  StronglySorted Qlt ts ->
  sweep_over df ts
  = (map (fun t => (t, evaluate df t)) ts,
     map (fun t => export_entry t (evaluate df t)) ts).
Proof.
  intro Hs. unfold sweep_over. rewrite sweep_fold_sorted.
  - reflexivity.
  - exact Hs.
  - constructor.
Qed.

Lemma sweep_eq (df : list row) (lo hi : Q) :
  sweep df lo hi
  = (map (fun t => (t, evaluate df t)) (thresholds lo hi),
     map (fun t => export_entry t (evaluate df t)) (thresholds lo hi)).
Proof. apply sweep_over_sorted, thresholds_sorted. Qed.


Lemma sweep_fold_exports (df : list row) (ts : list Q) :
  forall acc : dict counts * list export_row,
    snd (fold_left (sweep_step df) ts acc)
    = snd acc ++ map (fun t => export_entry t (evaluate df t)) ts.
Proof.
  induction ts as [|t ts IH]; intro acc; cbn [fold_left map].
  - now rewrite app_nil_r.
  - rewrite IH. unfold sweep_step. cbn [snd]. now rewrite <- app_assoc.
Qed.

Example dict_set_existing_key :
  dict_set 0.5 7%nat [(0.5, 1%nat); (0.6, 2%nat)] = [(0.5, 7%nat); (0.6, 2%nat)]
  /\ dict_set (1 # 2) 7%nat [(0.5, 1%nat)] = [(0.5, 7%nat)]
  /\ dict_set 0.7 7%nat [(0.5, 1%nat); (0.6, 2%nat)]
     = [(0.5, 1%nat); (0.6, 2%nat); (0.7, 7%nat)].
Proof. repeat split. Qed.

(** ** [min] with a key *)

Example py_min_first_of_ties :
  py_min snd [("a"%string, 3%Z); ("b"%string, 1%Z); ("c"%string, 1%Z)]
  = Some ("b"%string, 1%Z)
  /\ py_min snd ([] : list (string * Z)) = None.
Proof. split; reflexivity. Qed.

Lemma fold_min_spec {A : Type} (key : A -> Z) (xs : list A) :
  forall (pre : list A) (b : A) (mid : list A),
    (forall y, In y pre -> (key b < key y)%Z) ->
    (forall y, In y mid -> (key b <= key y)%Z) ->
    exists pre' b' post',
      pre ++ b :: mid ++ xs = pre' ++ b' :: post' /\
      fold_left (fun best y => if (key y <? key best)%Z then y else best) xs b
      = b' /\
      (forall y, In y pre' -> (key b' < key y)%Z) /\
      (forall y, In y post' -> (key b' <= key y)%Z).
Proof.
  induction xs as [|x xs IH]; intros pre b mid Hpre Hmid; cbn [fold_left].
  - exists pre, b, mid. rewrite app_nil_r. auto.
  - destruct (key x <? key b)%Z eqn:E.
    + apply Z.ltb_lt in E.
      destruct (IH (pre ++ b :: mid) x []) as (pre' & b' & post' & Hl & Hf & H1 & H2).
      * intros y Hy. apply in_app_or in Hy. destruct Hy as [Hy|[<-|Hy]].
        -- specialize (Hpre y Hy). lia.
        -- exact E.
        -- specialize (Hmid y Hy). lia.
      * intros y [].
      * exists pre', b', post'. repeat split; auto.
        rewrite <- Hl. cbn [app]. rewrite <- app_assoc. reflexivity.
    + apply Z.ltb_ge in E.
      destruct (IH pre b (mid ++ [x])) as (pre' & b' & post' & Hl & Hf & H1 & H2).
      * exact Hpre.
      * intros y Hy. apply in_app_or in Hy. destruct Hy as [Hy|[<-|[]]].
        -- now apply Hmid.
        -- exact E.
      * exists pre', b', post'. repeat split; auto.
        rewrite <- Hl. rewrite <- app_assoc. reflexivity.
Qed.

(** [min] returns the first item among those with the smallest key. *)
Lemma py_min_spec {A : Type} (key : A -> Z) (l : list A) :
  l <> [] ->
  exists pre b post,
    l = pre ++ b :: post /\
    py_min key l = Some b /\
    (forall y, In y pre -> (key b < key y)%Z) /\
    (forall y, In y post -> (key b <= key y)%Z).
Proof.
  destruct l as [|x xs]; [congruence|]. intros _.
  destruct (fold_min_spec key xs [] x []) as (pre & b & post & Hl & Hf & H1 & H2).
  - intros y [].
  - intros y [].
  - exists pre, b, post. cbn [py_min]. rewrite Hf. cbn [app] in Hl. auto.
Qed.

(** ** The sweep as a whole *)










(** ** Invalid ranges and the export button *)

Lemma analyze_thresholds_rejects
    (df : list row) (export_results : list export_row)
    (lo hi : Q) (target_anomalies : Z) :
  Qlt_bool hi lo = true ->
  analyze_thresholds df export_results lo hi target_anomalies
  = (export_results, [display_HTML invalid_range_html], Returned).
Proof. intro H. unfold analyze_thresholds. now rewrite H. Qed.

(** C9: with [threshold_min > threshold_max] the call shows the
    invalid-range warning and returns; [export_results] keeps the value it
    had, nothing else is displayed, and no exception is raised.  (The step
    is the constant 0.1, so a non-positive step cannot occur.) *)
Theorem invalid_range_aborts
    (df : list row) (export_results : list export_row)
    (lo hi : Q) (target_anomalies : Z) :
  hi < lo ->
  analyze_thresholds df export_results lo hi target_anomalies
  = (export_results, [display_HTML invalid_range_html], Returned).
Proof.
  intro H. apply analyze_thresholds_rejects. now apply Qlt_bool_iff.
Qed.

Lemma run_call_no_sweep (df : list row)
    (st : list export_row * list effect) (c : call) :
  match c with call_analyze lo hi _ => hi < lo | call_export => True end ->
  fst st = [] ->
  (forall name, ~ In (files_download name) (snd st)) ->
  fst (run_call df st c) = [] /\
  (forall name, ~ In (files_download name) (snd (run_call df st c))).
Proof.
  intros Hc Hst Hout. destruct st as [es out]. cbn [fst snd] in *. subst es.
  destruct c as [lo hi target|]; cbn [run_call fst snd].
  - apply Qlt_bool_iff in Hc.
    rewrite (analyze_thresholds_rejects df [] lo hi target Hc). cbn [fst snd].
    split; [reflexivity|].
    intros name Hin. apply in_app_or in Hin.
    destruct Hin as [Hin|[Hin|[]]]; [now apply (Hout name) | discriminate].
  - split; [reflexivity|].
    intros name Hin. apply in_app_or in Hin.
    destruct Hin as [Hin|[Hin|[]]]; [now apply (Hout name) | discriminate].
Qed.

Lemma run_calls_no_sweep (df : list row) (calls : list call) :
  no_sweep_ran calls ->
  forall st : list export_row * list effect,
    fst st = [] ->
    (forall name, ~ In (files_download name) (snd st)) ->
    fst (fold_left (run_call df) calls st) = [] /\
    (forall name,
       ~ In (files_download name) (snd (fold_left (run_call df) calls st))).
Proof.
  induction 1 as [|c calls Hc Hcalls IH]; intros st Hst Hout; cbn [fold_left].
  - now split.
  - destruct (run_call_no_sweep df st c Hc Hst Hout) as [H1 H2].
    now apply IH.
Qed.

(** C10: in a session where no sweep has produced results (the global
    starts empty and every call of [analyze_thresholds] so far was
    rejected), the export callback shows the no-results message and does
    nothing else: no download is started, then or earlier. *)
Theorem export_without_results (df : list row) (calls : list call) :
  no_sweep_ran calls ->
  export_csv_callback (fst (run_session df calls))
  = [display_HTML no_results_html] /\
  (forall name,
     ~ In (files_download name)
          (snd (run_session df (calls ++ [call_export])))).
Proof.
  intro Hcalls. split.
  - destruct (run_calls_no_sweep df calls Hcalls (initial_export_results, []))
      as [H _]; [reflexivity | intros name [] |].
    unfold run_session. now rewrite H.
  - apply run_calls_no_sweep.
    + apply Forall_app. split; [exact Hcalls | repeat constructor].
    + reflexivity.
    + intros name [].
Qed.

(** ** Negative thresholds *)

Lemma scored_candidates (df : list row) :
  scored df ->
  filter (fun r : row => String.eqb (Set_ r) "B" && negb (is_nan (ZScore r))) df
  = candidates df.
Proof.
  unfold candidates.
  induction 1 as [|r df Hr Hs IH]; [reflexivity|].
  cbn [filter]. rewrite IH.
  destruct (ZScore r); [congruence| |];
    cbn [is_nan negb]; now rewrite andb_true_r.
Qed.

(** C8, as the code has it: a negative threshold is evaluated like any
    other.  Every row of set B whose z-score is a number is detected, no
    row is missed, and on a frame of numbers the detected count is the size
    of set B. *)
Theorem negative_threshold_detects_all (df : list row) (t : Q) :
  t < 0 ->
  detected df t
  = filter (fun r : row => String.eqb (Set_ r) "B"
                           && negb (is_nan (ZScore r))) df /\
  missed (evaluate df t) = 0%nat /\
  (scored df ->
   total (evaluate df t) = length (candidates df) /\
   true_positives (evaluate df t) = length (true_outliers df)).
Proof.
  intro Ht.
  assert (Hgt : forall z, fgtb (np.abs z) (Fin t) = negb (is_nan z)).
  { intros [|s|q]; cbn [np.abs fgtb fltb is_nan negb]; try reflexivity.
    apply Qlt_bool_iff. pose proof (Qabs_nonneg q). lra. }
  assert (Hle : forall z, fleb (np.abs z) (Fin t) = false).
  { intros [|s|q]; cbn [np.abs fleb]; try reflexivity.
    destruct (Qle_bool (Qabs q) t) eqn:E; [|reflexivity].
    apply Qle_bool_iff in E. pose proof (Qabs_nonneg q). lra. }
  assert (Hmissed : missed_outliers df t = []).
  { unfold missed_outliers. induction df as [|r df IH]; [reflexivity|].
    cbn [filter]. rewrite Hle, andb_false_r. exact IH. }
  split; [|split].
  - unfold detected. apply filter_ext. intro r. now rewrite Hgt.
  - cbn [evaluate missed]. now rewrite Hmissed.
  - intro Hs.
    pose proof (true_positives_missed_split df t Hs) as Htp.
    rewrite Hmissed in Htp. cbn [length] in Htp.
    cbn [evaluate total true_positives]. split; [|lia].
    rewrite <- (scored_candidates df Hs). f_equal.
    unfold detected. apply filter_ext. intro r. now rewrite Hgt.
Qed.

(** ** Scoring *)




Lemma mean_A_eq (data : list observation) :
  (1 <= length (reference_values data))%nat ->
  mean data = Fin (referenceMean data).
Proof.
  unfold mean, referenceMean, Series.mean.
  change (CPU_of_set "A" data) with (reference_values data).
  destruct (reference_values data); cbn [length]; [lia | reflexivity].
Qed.

Lemma std_A_eq (sqrt : Q -> Q) (data : list observation) :
  (2 <= length (reference_values data))%nat ->
  std sqrt data = Fin (referenceStdDev sqrt data).
Proof.
  unfold std, referenceStdDev, referenceMean, Series.std.
  change (CPU_of_set "A" data) with (reference_values data).
  destruct (reference_values data) as [|a [|b l]]; cbn [length];
    [lia | lia | reflexivity].
Qed.

Lemma add_zscore_obs (sqrt : Q -> Q) (data : list observation) :
  map obs (add_zscore sqrt data) = data.
Proof.
  unfold add_zscore. rewrite map_map. cbn [obs]. apply map_id.
Qed.

Lemma add_zscore_nth (sqrt : Q -> Q) (data : list observation)
    (i : nat) (o : observation) :
  nth_error data i = Some o ->
  nth_error (add_zscore sqrt data) i
  = Some (mk_row o (fdiv (fsub (Fin (CPU o)) (mean data)) (std sqrt data))).
Proof.
  intro H. unfold add_zscore.
  now rewrite (map_nth_error _ _ _ H).
Qed.

(** C6: when set A has at least two values and their sample standard
    deviation is not zero, the scored frame has one row per input row, in
    input order, and the z-score of each is
    [(CPU - referenceMean) / referenceStdDev], both statistics taken over
    the values of set A only. *)
Theorem zscore_from_reference_statistics
    (sqrt : Q -> Q) (data : list observation) :
  (2 <= length (reference_values data))%nat ->
  ~ referenceStdDev sqrt data == 0 ->
  length (add_zscore sqrt data) = length data /\
  map obs (add_zscore sqrt data) = data /\
  (forall (i : nat) (o : observation),
     nth_error data i = Some o ->
     nth_error (add_zscore sqrt data) i
     = Some (mk_row o (Fin ((CPU o - referenceMean data)
                            / referenceStdDev sqrt data)))).
Proof.
  intros Hn Hstd. split; [|split].
  - unfold add_zscore. apply length_map.
  - apply add_zscore_obs.
  - intros i o Hi. rewrite (add_zscore_nth sqrt data i o Hi).
    rewrite mean_A_eq by lia. rewrite std_A_eq by exact Hn.
    cbn [fsub fdiv].
    destruct (Qeq_bool (referenceStdDev sqrt data) 0) eqn:E.
    + apply Qeq_bool_iff in E. contradiction.
    + reflexivity.
Qed.

(** Under the same conditions every z-score is a finite number. *)
Lemma add_zscore_scored (sqrt : Q -> Q) (data : list observation) :
  (2 <= length (reference_values data))%nat ->
  ~ referenceStdDev sqrt data == 0 ->
  scored (add_zscore sqrt data).
Proof.
  intros Hn Hstd. unfold scored, add_zscore.
  apply Forall_map, Forall_forall. intros o _. cbn [ZScore].
  rewrite mean_A_eq by lia. rewrite std_A_eq by exact Hn.
  cbn [fsub fdiv].
  destruct (Qeq_bool (referenceStdDev sqrt data) 0) eqn:E; [|discriminate].
  apply Qeq_bool_iff in E. contradiction.
Qed.




(** ** The square root *)

(** [Qsqrt] is the square root to within [2^-52]. *)
Lemma Qsqrt_bracket (x : Q) :
  0 <= x ->
  Qsqrt x * Qsqrt x <= x /\
  x < (Qsqrt x + (1 # 2 ^ 52)) * (Qsqrt x + (1 # 2 ^ 52)).
Proof.
  intro Hx. unfold Qsqrt.
  set (n := Qfloor (x * inject_Z (2 ^ 104))).
  assert (Hlo : inject_Z n <= x * inject_Z (2 ^ 104)) by apply Qfloor_le.
  assert (Hhi : x * inject_Z (2 ^ 104) < inject_Z (n + 1)) by apply Qlt_floor.
  assert (Hn : (0 <= n)%Z).
  { change 0%Z with (Qfloor 0). apply Qfloor_resp_le.
    apply Qmult_le_0_compat; [exact Hx | discriminate]. }
  destruct (Z.sqrt_spec n Hn) as [Hs1 Hs2].
  set (s := Z.sqrt n) in *.
  assert (Hs3 : (n + 1 <= (s + 1) * (s + 1))%Z) by lia.
  clear Hs2.
  rewrite Zle_Qle, inject_Z_mult in Hs1.
  rewrite Zle_Qle, inject_Z_mult, !inject_Z_plus in Hs3.
  rewrite inject_Z_plus in Hhi.
  assert (E1 : s # 2 ^ 52 == inject_Z s / inject_Z (2 ^ 52))
    by apply Qmake_Qdiv.
  assert (E2 : 1 # 2 ^ 52 == 1 / inject_Z (2 ^ 52)) by apply (Qmake_Qdiv 1).
  assert (EK : inject_Z (2 ^ 104) == inject_Z (2 ^ 52) * inject_Z (2 ^ 52))
    by reflexivity.
  assert (HK : 0 < inject_Z (2 ^ 52)) by reflexivity.
  rewrite E1, E2. rewrite EK in Hlo, Hhi.
  generalize dependent (inject_Z (2 ^ 52)). intros K Hlo Hhi _ _ _ HK.
  generalize dependent (inject_Z s). intros S Hs1 Hs3.
  generalize dependent (inject_Z n). intros N Hlo Hhi Hs1 Hs3.
  change (inject_Z 1) with 1 in *.
  assert (HKK : 0 < K * K) by nra.
  split.
  - setoid_replace (S / K * (S / K)) with (S * S / (K * K)) by (field; lra).
    apply Qle_shift_div_r; [exact HKK|]. eapply Qle_trans; eassumption.
  - setoid_replace ((S / K + 1 / K) * (S / K + 1 / K))
      with ((S + 1) * (S + 1) / (K * K)) by (field; lra).
    apply Qlt_shift_div_l; [exact HKK|].
    eapply Qlt_le_trans; eassumption.
Qed.


(** ** Rounding and the length of the sweep *)

(** At the sliders' default range the rounded and the exact length agree. *)
Example length_default_sliders :
  binary64.thresholds_length (binary64.literal 5 10) (binary64.of_Z 3)
  = Some 26%Z /\
  length (thresholds 0.5 3.0) = 26%nat.
Proof. vm_compute. split; reflexivity. Qed.

(** They differ where a rounded quotient lands just above an integer: the
    script then sweeps one threshold more, about [threshold_max + 0.1]. *)
Example length_rounded_up :
  binary64.thresholds_length (binary64.of_Z 1) (binary64.of_Z 1) = Some 2%Z /\
  length (thresholds 1 1) = 1%nat /\
  binary64.thresholds_length (binary64.literal 5 10) (binary64.of_Z 1)
  = Some 7%Z /\
  length (thresholds 0.5 1) = 6%nat.
Proof. vm_compute. repeat split. Qed.

(** ** The script's own data *)

Lemma df_scored : scored df.
Proof.
  unfold scored. apply Forall_forall. intros r Hr.
  assert (H : is_nan (ZScore r) = false).
  { revert r Hr. apply Forall_forall. vm_compute. repeat constructor. }
  intro E. rewrite E in H. discriminate.
Qed.

Example df_labels :
  map (fun r : row => Label r) df
  = ["A1"; "A2"; "A3"; "A4"; "A5"; "A6";
     "B1"; "B2"; "B3"; "B4"; "B5"; "B6"; "B7"; "B8"; "B9"; "B10"]%string.
Proof. reflexivity. Qed.

Example default_sliders_closest :
  option_map Qred (closest_threshold (fst (sweep df 0.5 3.0)) 6)
  = Some (Qred 1.2).
Proof. vm_compute. reflexivity. Qed.

Example default_sliders_detected :
  map Detected (snd (sweep df 0.5 3.0))
  = [7; 7; 7; 7; 7; 7; 7; 6; 6; 6; 6; 6; 6; 6; 6; 6; 5; 5; 4; 4; 4; 3; 3; 3;
     3; 3]%nat.
Proof. vm_compute. reflexivity. Qed.

(** ** Instances *)




Lemma boundary_row_is_missed :
  In boundary_row [boundary_row] /\
  Set_ boundary_row = "B"%string /\
  at_threshold (ZScore boundary_row) 2.0 /\
  ~ In boundary_row (detected [boundary_row] 2.0) /\
  In boundary_row (missed_outliers [boundary_row] 2.0).
Proof.
  assert (Hin : In boundary_row [boundary_row]) by (left; reflexivity).
  assert (Hat : at_threshold (ZScore boundary_row) 2.0) by reflexivity.
  destruct (detected_iff_strictly_above [boundary_row] 2.0 boundary_row
              Hin eq_refl) as (_ & _ & H).
  destruct (H Hat) as [Hnot Hmissed].
  repeat split; auto.
Defined.


Lemma df_total_antitone :
  2.0 < 2.5 /\ (total (evaluate df 2.5) <= total (evaluate df 2.0))%nat.
Proof.
  split; [lra|]. apply (total_detected_antitone df 2.0 2.5). lra.
Defined.

Lemma df_zscore_from_reference_statistics :
  (2 <= length (reference_values (DataFrame data)))%nat /\
  ~ referenceStdDev Qsqrt (DataFrame data) == 0 /\
  length df = length (DataFrame data) /\
  map obs df = DataFrame data.
Proof.
  assert (Hn : (2 <= length (reference_values (DataFrame data)))%nat)
    by (vm_compute; lia).
  assert (Hs : ~ referenceStdDev Qsqrt (DataFrame data) == 0)
    by (vm_compute; discriminate).
  destruct (zscore_from_reference_statistics Qsqrt (DataFrame data) Hn Hs)
    as (Hlen & Hobs & _).
  repeat split; assumption.
Defined.



(** A negative threshold is swept like any other: no error, a row in
    which all ten rows of set B are detected. *)
Lemma negative_threshold_is_evaluated :
  evaluate df (-1) = mk_counts 10 6 4 0 /\
  snd (analyze_thresholds df [] (-1) (-1) 6) = Returned /\
  map (fun e => (Qred (Threshold e), Detected e))
      (fst (fst (analyze_thresholds df [] (-1) (-1) 6)))
  = [(Qred (-1), 10%nat)].
Proof. vm_compute. repeat split. Qed.

Lemma df_negative_threshold :
  -1 < 0 /\
  missed (evaluate df (-1)) = 0%nat /\
  total (evaluate df (-1)) = length (candidates df).
Proof.
  destruct (negative_threshold_detects_all df (-1)) as (_ & Hm & Hs);
    [lra|].
  destruct (Hs df_scored) as [Ht _].
  split; [lra | split; [exact Hm | exact Ht]].
Defined.

Lemma reversed_sliders_abort :
  0.5 < 1.0 /\
  analyze_thresholds df (snd (sweep df 0.5 3.0)) 1.0 0.5 6
  = (snd (sweep df 0.5 3.0), [display_HTML invalid_range_html], Returned).
Proof.
  split; [lra|].
  apply (invalid_range_aborts df (snd (sweep df 0.5 3.0)) 1.0 0.5 6). lra.
Defined.

Lemma export_after_rejected_call :
  no_sweep_ran [call_analyze 1.0 0.5 6] /\
  export_csv_callback (fst (run_session df [call_analyze 1.0 0.5 6]))
  = [display_HTML no_results_html] /\
  (forall name,
     ~ In (files_download name)
          (snd (run_session df ([call_analyze 1.0 0.5 6] ++ [call_export])))).
Proof.
  assert (H : no_sweep_ran [call_analyze 1.0 0.5 6]).
  { repeat constructor. }
  split; [exact H|].
  apply (export_without_results df [call_analyze 1.0 0.5 6] H).
Defined.

(** After a sweep that ran, the callback starts the download. *)
Example export_after_sweep :
  export_csv_callback (fst (run_session df [call_analyze 0.5 3.0 6]))
  = [files_download "anomaly_thresholds.csv"].
Proof. vm_compute. reflexivity. Qed.

(** * Further properties of the script *)

(** ** Helpers *)

Lemma filter_filter {A : Type} (p q : A -> bool) (l : list A) :
  filter p (filter q l) = filter (fun x => q x && p x) l.
Proof.
  induction l as [|a l IH]; [reflexivity|].
  cbn [filter]. destruct (q a); cbn [andb filter]; [|exact IH].
  destruct (p a); now rewrite IH.
Qed.

Lemma exceeds_antitone_le (z : pyfloat) (t1 t2 : Q) :
  t1 <= t2 -> exceeds z t2 -> exceeds z t1.
Proof.
  destruct z as [|s|q]; simpl; auto.
  intros H12 H2. eapply Qle_lt_trans; eassumption.
Qed.

Lemma within_monotone (z : pyfloat) (t1 t2 : Q) :
  t1 <= t2 -> within z t1 -> within z t2.
Proof.
  destruct z as [|s|q]; simpl; auto.
  intros H12 H1. eapply Qle_trans; eassumption.
Qed.

Lemma within_not_exceeds (z : pyfloat) (t : Q) :
  within z t -> fgtb (np.abs z) (Fin t) = false.
Proof.
  intro H. destruct (fgtb (np.abs z) (Fin t)) eqn:E; [|reflexivity].
  apply fgtb_abs_spec in E. destruct z as [|s|q]; simpl in *; try contradiction.
  exfalso. exact (Qlt_not_le _ _ E H).
Qed.

Lemma fdiv_nan_r (x : pyfloat) : fdiv x NaN = NaN.
Proof. now destruct x. Qed.

Lemma std_insufficient (sqrt : Q -> Q) (data : list observation) :
  (length (reference_values data) <= 1)%nat -> std sqrt data = NaN.
Proof.
  unfold std, Series.std.
  change (CPU_of_set "A" data) with (reference_values data).
  destruct (reference_values data) as [|a [|b l]]; cbn [length];
    [reflexivity | reflexivity | lia].
Qed.

Lemma evaluate_nan_frame (df : list row) (t : Q) :
  Forall (fun r : row => ZScore r = NaN) df ->
  evaluate df t = mk_counts 0 0 0 0.
Proof.
  intro H.
  assert (Hd : detected df t = []).
  { unfold detected. induction H as [|r df Hr _ IH]; [reflexivity|].
    cbn [filter]. rewrite Hr. cbn [np.abs fgtb fltb].
    now rewrite andb_false_r. }
  assert (Hm : missed_outliers df t = []).
  { clear Hd. unfold missed_outliers.
    induction H as [|r df Hr _ IH]; [reflexivity|].
    cbn [filter]. rewrite Hr. cbn [np.abs fleb].
    now rewrite andb_false_r. }
  unfold evaluate. now rewrite Hd, Hm.
Qed.


(** ** Scoring with too few reference rows *)

Lemma add_zscore_insufficient (sqrt : Q -> Q) (data : list observation) :
  (length (reference_values data) <= 1)%nat ->
  Forall (fun r : row => ZScore r = NaN) (add_zscore sqrt data).
Proof.
  intro Hn. unfold add_zscore. apply Forall_map, Forall_forall. intros o _.
  cbn [ZScore]. rewrite (std_insufficient sqrt data Hn). apply fdiv_nan_r.
Qed.

(** X1: when set A has no row or a single row, [Series.std] is NaN and so
    is the z-score of every row; the rows themselves are kept, in order. *)
Theorem insufficient_reference_scores_nan
    (sqrt : Q -> Q) (data : list observation) :
  (length (reference_values data) <= 1)%nat ->
  map obs (add_zscore sqrt data) = data /\
  Forall (fun r : row => ZScore r = NaN) (add_zscore sqrt data).
Proof.
  intro Hn. split; [apply add_zscore_obs | now apply add_zscore_insufficient].
Qed.

(** X2: on a frame scored from fewer than two reference rows, every row a
    sweep exports has all four counts at zero, whatever the range. *)
Theorem insufficient_reference_sweeps_to_zero
    (sqrt : Q -> Q) (data : list observation) (lo hi : Q) :
  (length (reference_values data) <= 1)%nat ->
  Forall (fun e => Detected e = 0%nat /\ TruePositives e = 0%nat /\
                   FalsePositives e = 0%nat /\ MissedOutliers e = 0%nat)
         (snd (sweep (add_zscore sqrt data) lo hi)).
Proof.
  intro Hn. rewrite sweep_eq. cbn [snd].
  apply Forall_map, Forall_forall. intros t _.
  rewrite (evaluate_nan_frame _ t (add_zscore_insufficient sqrt data Hn)).
  cbn. auto.
Qed.

(** ** The four counts *)

Lemma score_tests_cases (z : pyfloat) (t : Q) :
  (is_nan z = true /\ fgtb (np.abs z) (Fin t) = false
   /\ fleb (np.abs z) (Fin t) = false) \/
  (is_nan z = false
   /\ fleb (np.abs z) (Fin t) = negb (fgtb (np.abs z) (Fin t))).
Proof.
  destruct z as [|s|q].
  - left. repeat split.
  - right. split; reflexivity.
  - right. split; [reflexivity|].
    apply fleb_abs_negb_fgtb. discriminate.
Qed.

Lemma true_positives_missed_nan_split (df : list row) (t : Q) :
  (length (true_positives_of (detected df t))
   + length (missed_outliers df t)
   + length (nan_true_outliers df)
   = length (true_outliers df))%nat.
Proof.
  unfold true_positives_of, detected, missed_outliers, nan_true_outliers,
    true_outliers.
  induction df as [|r df IH]; [reflexivity|].
  cbn [filter].
  destruct (score_tests_cases (ZScore r) t) as [(-> & -> & ->)|(-> & ->)];
    destruct (String.eqb (Set_ r) "B"), (IsTrueOutlier r) eqn:Eo;
    try destruct (fgtb (np.abs (ZScore r)) (Fin t));
    cbn [andb negb filter length]; rewrite ?Eo; cbn [Bool.eqb length]; lia.
Qed.

(** X3: for every frame and threshold, NaN scores included: detected is
    true positives plus false positives and is at most the size of set B;
    true positives, missed outliers and the true outliers with a NaN score
    add up to the true outliers of set B. *)
Theorem counts_account_for_nan (df : list row) (t : Q) :
  total (evaluate df t)
  = (true_positives (evaluate df t) + false_positives (evaluate df t))%nat /\
  (total (evaluate df t) <= length (candidates df))%nat /\
  (true_positives (evaluate df t) + missed (evaluate df t)
   + length (nan_true_outliers df))%nat
  = length (true_outliers df).
Proof.
  cbn [evaluate total true_positives false_positives missed].
  split; [|split].
  - symmetry. apply true_false_positives_split.
  - unfold detected, candidates. apply filter_length_mono.
    intros r _ Hr. apply andb_true_iff in Hr. tauto.
  - apply true_positives_missed_nan_split.
Qed.

(** X4: raising the threshold never raises the true positives or the false
    positives, and never lowers the missed outliers. *)
Theorem counts_monotone (df : list row) (t1 t2 : Q) :
  t1 <= t2 ->
  (true_positives (evaluate df t2) <= true_positives (evaluate df t1))%nat /\
  (false_positives (evaluate df t2) <= false_positives (evaluate df t1))%nat /\
  (missed (evaluate df t1) <= missed (evaluate df t2))%nat.
Proof.
  intro H12.
  cbn [evaluate true_positives false_positives missed].
  unfold true_positives_of, false_positives_of, detected, missed_outliers.
  rewrite !filter_filter.
  assert (Hgt : forall r : row,
    fgtb (np.abs (ZScore r)) (Fin t2) = true ->
    fgtb (np.abs (ZScore r)) (Fin t1) = true).
  { intros r H. apply fgtb_abs_spec. apply fgtb_abs_spec in H.
    eapply exceeds_antitone_le; eassumption. }
  assert (Hle : forall r : row,
    fleb (np.abs (ZScore r)) (Fin t1) = true ->
    fleb (np.abs (ZScore r)) (Fin t2) = true).
  { intros r H. apply fleb_abs_spec. apply fleb_abs_spec in H.
    eapply within_monotone; eassumption. }
  split; [|split]; apply filter_length_mono; intros r _ Hr;
    repeat (apply andb_true_iff in Hr; destruct Hr as [Hr ?]);
    repeat (apply andb_true_iff; split); auto;
    destruct (IsTrueOutlier r); auto; discriminate.
Qed.

(** X5: at a threshold no row of set B exceeds, nothing is detected and
    the missed outliers are exactly the true outliers of set B. *)
Theorem threshold_above_all_scores (df : list row) (t : Q) :
  Forall (fun r : row => within (ZScore r) t) (candidates df) ->
  detected df t = [] /\
  missed_outliers df t = true_outliers df /\
  evaluate df t = mk_counts 0 0 0 (length (true_outliers df)).
Proof.
  intro H.
  assert (Hin : forall r : row, In r df -> String.eqb (Set_ r) "B" = true ->
                within (ZScore r) t).
  { intros r Hr HB. rewrite Forall_forall in H. apply H.
    unfold candidates. apply filter_In. now split. }
  assert (Hd : detected df t = []).
  { unfold detected. clear H. induction df as [|r df IH]; [reflexivity|].
    cbn [filter].
    destruct (String.eqb (Set_ r) "B") eqn:EB; cbn [andb].
    - rewrite (within_not_exceeds _ _ (Hin r (or_introl eq_refl) EB)).
      apply IH. intros r' Hr'. apply Hin. now right.
    - apply IH. intros r' Hr'. apply Hin. now right. }
  assert (Hm : missed_outliers df t = true_outliers df).
  { unfold missed_outliers, true_outliers. apply filter_ext_in.
    intros r Hr.
    destruct (String.eqb (Set_ r) "B") eqn:EB; cbn [andb]; [|reflexivity].
    destruct (IsTrueOutlier r); cbn [andb]; [|reflexivity].
    apply fleb_abs_spec. now apply Hin. }
  split; [exact Hd|]. split; [exact Hm|].
  unfold evaluate. now rewrite Hd, Hm.
Qed.

(** ** The call as a whole *)





Lemma evaluate_Qeq (df : list row) (t t' : Q) :
  t == t' -> evaluate df t = evaluate df t'.
Proof.
  intro H.
  assert (Hgt : forall z, fgtb (np.abs z) (Fin t) = fgtb (np.abs z) (Fin t')).
  { intros [|s|q]; cbn [np.abs fgtb fltb]; try reflexivity.
    unfold Qlt_bool. now rewrite H. }
  assert (Hle : forall z, fleb (np.abs z) (Fin t) = fleb (np.abs z) (Fin t')).
  { intros [|s|q]; cbn [np.abs fleb]; try reflexivity. now rewrite H. }
  assert (Hd : detected df t = detected df t').
  { unfold detected. apply filter_ext. intro r. now rewrite Hgt. }
  assert (Hm : missed_outliers df t = missed_outliers df t').
  { unfold missed_outliers. apply filter_ext. intro r. now rewrite Hle. }
  unfold evaluate. now rewrite Hd, Hm.
Qed.







(** ** Sessions *)






(** ** The summary table *)



Lemma StronglySorted_map {A B : Type} (R : A -> A -> Prop)
    (R' : B -> B -> Prop) (f : A -> B) (l : list A) :
  (forall a b, R a b -> R' (f a) (f b)) ->
  StronglySorted R l -> StronglySorted R' (map f l).
Proof.
  intros Hf. induction 1 as [|a l Hs IH Ha]; cbn [map]; constructor.
  - exact IH.
  - apply Forall_map. eapply Forall_impl; [|exact Ha].
    intros b Hab. now apply Hf.
Qed.

Lemma color_monotone (t t' : Q) :
  t < t' -> (severity (color t) <= severity (color t'))%nat.
Proof.
  intro H. unfold color.
  destruct (Qle_bool t 1) eqn:E1; [cbn; lia|].
  destruct (Qle_bool t' 1) eqn:E1'.
  { apply Qle_bool_iff in E1'. assert (Ht : t <= 1) by lra.
    apply Qle_bool_iff in Ht. congruence. }
  destruct (Qle_bool t 2) eqn:E2; [destruct (Qle_bool t' 2); cbn; lia|].
  destruct (Qle_bool t' 2) eqn:E2'; [|cbn; lia].
  apply Qle_bool_iff in E2'. assert (Ht : t <= 2) by lra.
  apply Qle_bool_iff in Ht. congruence.
Qed.

(** X14: down the summary table the row colours never go back: green rows
    (thresholds up to 1) come first, then orange (up to 2), then red. *)
Theorem summary_colours_in_order (df : list row) (lo hi closest : Q) :
  StronglySorted (fun c c' => (severity c <= severity c')%nat)
    (map fst (summary_styles closest (fst (sweep df lo hi)))).
Proof.
  unfold summary_styles. rewrite sweep_eq. cbn [fst]. rewrite !map_map.
  cbn [fst].
  apply (StronglySorted_map Qlt); [exact color_monotone|].
  apply thresholds_sorted.
Qed.

(** ** Building the frame *)

Lemma map_fst_combine {A B : Type} (l : list A) (l' : list B) :
  length l' = length l -> map fst (combine l l') = l.
Proof.
  revert l'. induction l as [|a l IH]; intros [|b l'] H; cbn in *;
    try reflexivity; try discriminate.
  f_equal. apply IH. lia.
Qed.

Lemma map_snd_combine {A B : Type} (l : list A) (l' : list B) :
  length l' = length l -> map snd (combine l l') = l'.
Proof.
  revert l'. induction l as [|a l IH]; intros [|b l'] H; cbn in *;
    try reflexivity; try discriminate.
  f_equal. apply IH. lia.
Qed.

Lemma length_combine_eq {A B : Type} (l : list A) (l' : list B) :
  length l' = length l -> length (combine l l') = length l.
Proof. intro H. rewrite length_combine, H. apply Nat.min_id. Qed.

(** X15: from columns of one length, [pd.DataFrame] builds one row per
    index and each column is read back from the rows unchanged. *)
Theorem DataFrame_columns (d : columns) :
  length (col_Set d) = length (col_CPU d) ->
  length (col_IsTrueOutlier d) = length (col_CPU d) ->
  length (col_Label d) = length (col_CPU d) ->
  length (DataFrame d) = length (col_CPU d) /\
  map CPU (DataFrame d) = col_CPU d /\
  map Set_ (DataFrame d) = col_Set d /\
  map IsTrueOutlier (DataFrame d) = col_IsTrueOutlier d /\
  map Label (DataFrame d) = col_Label d.
Proof.
  intros HS HO HL. unfold DataFrame.
  set (cs := combine (col_CPU d) (col_Set d)).
  set (cso := combine cs (col_IsTrueOutlier d)).
  assert (Hcs : length cs = length (col_CPU d))
    by (apply length_combine_eq; exact HS).
  assert (Hcso : length cso = length (col_CPU d)).
  { unfold cso. rewrite length_combine_eq; congruence. }
  rewrite length_map, !map_map.
  repeat split.
  - rewrite length_combine_eq; congruence.
  - rewrite (map_ext _ (fun x => fst (fst (fst x))))
      by (intros [[[c s] o] l]; reflexivity).
    rewrite <- (map_map fst (fun x => fst (fst x))), map_fst_combine
      by congruence.
    unfold cso.
    rewrite <- (map_map fst fst), map_fst_combine by congruence.
    now apply map_fst_combine.
  - rewrite (map_ext _ (fun x => snd (fst (fst x))))
      by (intros [[[c s] o] l]; reflexivity).
    rewrite <- (map_map fst (fun x => snd (fst x))), map_fst_combine
      by congruence.
    unfold cso.
    rewrite <- (map_map fst snd), map_fst_combine by congruence.
    now apply map_snd_combine.
  - rewrite (map_ext _ (fun x => snd (fst x)))
      by (intros [[[c s] o] l]; reflexivity).
    rewrite <- (map_map fst snd), map_fst_combine by congruence.
    apply map_snd_combine. congruence.
  - rewrite (map_ext _ snd) by (intros [[[c s] o] l]; reflexivity).
    apply map_snd_combine. congruence.
Qed.

(** ** Any threshold sequence *)

Lemma dict_set_add_key (df : list row) (keys : list Q) (t : Q) :
  dict_set t (evaluate df t) (map (fun k => (k, evaluate df k)) keys)
  = map (fun k => (k, evaluate df k)) (add_key keys t).
Proof.
  unfold add_key.
  induction keys as [|k keys IH]; cbn [map dict_set existsb app];
    [reflexivity|].
  destruct (Qeq_bool k t) eqn:E; cbn [orb map].
  - apply Qeq_bool_iff in E. now rewrite <- (evaluate_Qeq df k t E).
  - rewrite IH. now destruct (existsb (fun k0 => Qeq_bool k0 t) keys).
Qed.

Lemma sweep_fold_keys (df : list row) (ts : list Q) :
  forall (keys : list Q) (e : list export_row),
    fst (fold_left (sweep_step df) ts
           (map (fun k => (k, evaluate df k)) keys, e))
    = map (fun k => (k, evaluate df k)) (fold_left add_key ts keys).
Proof.
  induction ts as [|t ts IH]; intros keys e; cbn [fold_left]; [reflexivity|].
  unfold sweep_step at 2. cbn [fst snd]. rewrite dict_set_add_key. apply IH.
Qed.

Lemma add_keys_sound (ts : list Q) :
  forall (keys : list Q) (t : Q),
    In t (fold_left add_key ts keys) -> In t keys \/ In t ts.
Proof.
  induction ts as [|t0 ts IH]; intros keys t H; cbn [fold_left] in H.
  - now left.
  - apply IH in H. destruct H as [H|H]; [|right; now right].
    unfold add_key in H.
    destruct (existsb (fun k => Qeq_bool k t0) keys); [now left|].
    apply in_app_or in H. destruct H as [H|[<-|[]]]; [now left|].
    right. now left.
Qed.

Lemma add_keys_complete (ts : list Q) :
  forall (keys : list Q) (t : Q),
    (exists k, In k keys /\ k == t) \/ In t ts ->
    exists k, In k (fold_left add_key ts keys) /\ k == t.
Proof.
  induction ts as [|t0 ts IH]; intros keys t H; cbn [fold_left].
  - destruct H as [H|[]]. exact H.
  - apply IH. unfold add_key.
    destruct (existsb (fun k => Qeq_bool k t0) keys) eqn:E.
    + destruct H as [H|[<-|H]]; [now left | | now right].
      left. apply existsb_exists in E. destruct E as (k & Hk & Hkt).
      exists k. split; [exact Hk | now apply Qeq_bool_iff].
    + destruct H as [(k & Hk & Hkt)|[<-|H]]; [| | now right].
      * left. exists k. split; [apply in_or_app; now left | exact Hkt].
      * left. exists t0. split; [apply in_or_app; right; now left|].
        reflexivity.
Qed.

Lemma ForallOrdPairs_snoc {A : Type} (R : A -> A -> Prop)
    (l : list A) (x : A) :
  ForallOrdPairs R l -> Forall (fun a => R a x) l ->
  ForallOrdPairs R (l ++ [x]).
Proof.
  induction 1 as [|a l Ha Hl IH]; intro Hx; cbn [app].
  - repeat constructor.
  - inversion Hx as [|? ? Hax Hlx]; subst. constructor.
    + apply Forall_app. split; [exact Ha | now constructor].
    + now apply IH.
Qed.

Lemma add_keys_distinct (ts : list Q) :
  forall keys : list Q,
    ForallOrdPairs (fun a b => ~ a == b) keys ->
    ForallOrdPairs (fun a b => ~ a == b) (fold_left add_key ts keys).
Proof.
  induction ts as [|t ts IH]; intros keys H; cbn [fold_left]; [exact H|].
  apply IH. unfold add_key.
  destruct (existsb (fun k => Qeq_bool k t) keys) eqn:E; [exact H|].
  apply ForallOrdPairs_snoc; [exact H|].
  apply Forall_forall. intros k Hk Hkt.
  assert (Hex : existsb (fun k => Qeq_bool k t) keys = true).
  { apply existsb_exists. exists k. split; [exact Hk|].
    now apply Qeq_bool_iff. }
  congruence.
Qed.

(** X16: for any threshold sequence, repeats included, [export_results]
    gets one row per iteration, and [results] gets one item per distinct
    threshold value, at its first occurrence, holding the counts of that
    threshold: its keys are thresholds of the sequence, every threshold of
    the sequence equals one of them, and no two keys are equal. *)
Theorem results_hold_distinct_thresholds (df : list row) (ts : list Q) :
  snd (sweep_over df ts) = map (fun t => export_entry t (evaluate df t)) ts /\
  fst (sweep_over df ts)
  = map (fun k => (k, evaluate df k)) (distinct_keys ts) /\
  (forall k, In k (distinct_keys ts) -> In k ts) /\
  (forall t, In t ts -> exists k, In k (distinct_keys ts) /\ k == t) /\
  ForallOrdPairs (fun a b => ~ a == b) (distinct_keys ts).
Proof.
  unfold sweep_over, distinct_keys. repeat split.
  - now rewrite sweep_fold_exports.
  - exact (sweep_fold_keys df ts [] []).
  - intros k Hk. apply add_keys_sound in Hk. now destruct Hk as [[]|Hk].
  - intros t Ht. apply add_keys_complete. now right.
  - apply add_keys_distinct. constructor.
Qed.

(** X17: for any non-empty threshold sequence, repeats included, the
    threshold shown as closest is a threshold of the sequence and no
    threshold of the sequence has a detected count nearer the target. *)
Theorem closest_threshold_minimises_any_sequence
    (df : list row) (ts : list Q) (target_anomalies : Z) :
  ts <> [] ->
  exists best,
    closest_threshold (fst (sweep_over df ts)) target_anomalies = Some best /\
    In best ts /\
    forall t, In t ts ->
      (distance target_anomalies (evaluate df best)
       <= distance target_anomalies (evaluate df t))%Z.
Proof.
  intro Hne.
  set (f := fun k : Q => (k, evaluate df k)).
  set (key := fun x : Q * counts => distance target_anomalies (snd x)).
  assert (Hkeys : fold_left add_key ts [] <> []).
  { destruct ts as [|t0 ts']; [congruence|].
    destruct (add_keys_complete (t0 :: ts') [] t0 (or_intror (or_introl eq_refl)))
      as (k & Hk & _).
    intro E. rewrite E in Hk. contradiction. }
  destruct (py_min_spec key (map f (fold_left add_key ts [])))
    as (pre & b & post & Hl & Hmin & Hpre & Hpost).
  { intro E. apply map_eq_nil in E. contradiction. }
  assert (Hb : In b (map f (fold_left add_key ts [])))
    by (rewrite Hl; apply in_or_app; right; now left).
  apply in_map_iff in Hb. destruct Hb as (best & Hbest & Hin).
  exists best. split; [|split].
  - pose proof (sweep_fold_keys df ts [] []) as Hres.
    change (map (fun k => (k, evaluate df k)) []) with (@nil (Q * counts))
      in Hres.
    unfold closest_threshold, sweep_over. rewrite Hres.
    fold f. fold key. rewrite Hmin, <- Hbest. reflexivity.
  - apply add_keys_sound in Hin. now destruct Hin as [[]|Hin].
  - intros t Ht.
    destruct (add_keys_complete ts [] t (or_intror Ht)) as (k & Hk & Hkt).
    rewrite <- (evaluate_Qeq df k t Hkt).
    assert (Hfk : In (f k) (pre ++ b :: post))
      by (rewrite <- Hl; now apply in_map).
    assert (Hkb : key b = distance target_anomalies (evaluate df best))
      by (rewrite <- Hbest; reflexivity).
    assert (Hkk : key (f k) = distance target_anomalies (evaluate df k))
      by reflexivity.
    rewrite <- Hkb, <- Hkk.
    apply in_app_or in Hfk. destruct Hfk as [Hfk|[Hfk|Hfk]].
    + specialize (Hpre _ Hfk). lia.
    + rewrite Hfk. lia.
    + exact (Hpost _ Hfk).
Qed.

(** ** Scores, bands and the reference set *)








(** ** Instances of the further properties *)

Lemma single_reference_scores_nan :
  (length (reference_values single_reference_data) <= 1)%nat /\
  Forall (fun r : row => ZScore r = NaN)
         (add_zscore Qsqrt single_reference_data).
Proof.
  assert (Hn : (length (reference_values single_reference_data) <= 1)%nat)
    by (vm_compute; lia).
  split; [exact Hn|].
  apply (insufficient_reference_scores_nan Qsqrt single_reference_data Hn).
Defined.

Lemma single_reference_sweeps_to_zero :
  (length (reference_values single_reference_data) <= 1)%nat /\
  Forall (fun e => Detected e = 0%nat /\ TruePositives e = 0%nat /\
                   FalsePositives e = 0%nat /\ MissedOutliers e = 0%nat)
         (snd (sweep (add_zscore Qsqrt single_reference_data) 0.5 3.0)).
Proof.
  assert (Hn : (length (reference_values single_reference_data) <= 1)%nat)
    by (vm_compute; lia).
  split; [exact Hn|].
  apply (insufficient_reference_sweeps_to_zero Qsqrt single_reference_data
           0.5 3.0 Hn).
Defined.

Lemma df_counts_monotone :
  2.0 <= 2.5 /\
  (true_positives (evaluate df 2.5) <= true_positives (evaluate df 2.0))%nat /\
  (false_positives (evaluate df 2.5) <= false_positives (evaluate df 2.0))%nat /\
  (missed (evaluate df 2.0) <= missed (evaluate df 2.5))%nat.
Proof.
  split; [lra|]. apply (counts_monotone df 2.0 2.5). lra.
Defined.

Lemma df_within_four :
  Forall (fun r : row => within (ZScore r) 4) (candidates df).
Proof.
  apply Forall_forall. intros r Hr. apply fleb_abs_spec.
  revert r Hr. apply forallb_forall. vm_compute. reflexivity.
Qed.

Lemma df_threshold_four :
  Forall (fun r : row => within (ZScore r) 4) (candidates df) /\
  detected df 4 = [] /\
  missed_outliers df 4 = true_outliers df.
Proof.
  destruct (threshold_above_all_scores df 4 df_within_four) as (Hd & Hm & _).
  split; [exact df_within_four|]. split; assumption.
Defined.






Lemma data_columns :
  length (col_Set data) = length (col_CPU data) /\
  length (col_IsTrueOutlier data) = length (col_CPU data) /\
  length (col_Label data) = length (col_CPU data) /\
  length (DataFrame data) = length (col_CPU data) /\
  map CPU (DataFrame data) = col_CPU data.
Proof.
  destruct (DataFrame_columns data eq_refl eq_refl eq_refl) as (Hl & Hc & _).
  repeat split; assumption.
Defined.

Lemma repeating_thresholds_closest :
  repeating_thresholds <> [] /\
  exists best,
    closest_threshold (fst (sweep_over df repeating_thresholds)) 6
    = Some best /\
    In best repeating_thresholds /\
    forall t, In t repeating_thresholds ->
      (distance 6 (evaluate df best) <= distance 6 (evaluate df t))%Z.
Proof.
  assert (H : repeating_thresholds <> []) by discriminate.
  split; [exact H|].
  apply (closest_threshold_minimises_any_sequence df repeating_thresholds 6 H).
Defined.

Example repeating_thresholds_results :
  map fst (fst (sweep_over df repeating_thresholds)) = [1.0; 0.5; 2.5] /\
  length (snd (sweep_over df repeating_thresholds)) = 4%nat.
Proof. vm_compute. split; reflexivity. Qed.


